(** * fwew-react: the Fwew search screen

    A shallow embedding of [src/components/fwew-screen.tsx]: the state cells
    of the [FwewScreen] component, its event handlers, the two promise
    callbacks of [fetchData], and the part of its render tree that depends on
    the state cells.

    Strings are [string]s of bytes: a JavaScript string is represented by its
    UTF-8 encoding, so the ASCII literals of the source are themselves and a
    well-formed non-ASCII character is its UTF-8 byte sequence.  (A string
    with an unpaired surrogate has no UTF-8 form and is not represented:
    [encodeURI] raises [URIError] on those only.) *)

From Stdlib Require Import String Ascii List Bool NArith PeanoNat Lia.
From ExtLib Require Import Structures.Monad Structures.MonadState.
From ExtLib Require Import Data.Monads.StateMonad.
Import ListNotations.
Import MonadNotation.
Local Open Scope string_scope.
Local Open Scope monad_scope.

Set Implicit Arguments.
Set Warnings "-register-all".

(** ** The built-in [encodeURI] (ECMA-262, 19.2.6) *)

Module URI.

(** A set of characters is given, as in the standard, by the string that
    lists them. *)
Fixpoint contains (set : string) (c : ascii) : bool :=
  match set with
  | EmptyString => false
  | String d rest => Ascii.eqb c d || contains rest c
  end.

Definition asciiWordCharacters : string :=
  "ABCDEFGHIJKLMNOPQRSTUVWXYZabcdefghijklmnopqrstuvwxyz0123456789_".

Definition alwaysUnescaped : string := asciiWordCharacters ++ "-.!~*'()".

Definition hexDigits : string := "0123456789ABCDEF".

Definition hexDigit (n : N) : ascii :=
  match String.get (N.to_nat n) hexDigits with
  | Some d => d
  | None => "0"%char
  end.

(** One octet as ["%XX"], two upper-case hexadecimal digits. *)
Definition percentEscape (octet : ascii) : string :=
  let n := N_of_ascii octet in
  String "%" (String (hexDigit (n / 16)) (String (hexDigit (n mod 16)) EmptyString)).

(** [Encode(string, extraUnescaped)]: a character of [unescapedSet] is
    copied, every other one is replaced by the escapes of its UTF-8 octets
    (here the octets are the bytes of the string themselves). *)
Definition encodeChar (unescapedSet : string) (c : ascii) : string :=
  if contains unescapedSet c then String c EmptyString else percentEscape c.

Fixpoint encodeWith (unescapedSet : string) (s : string) : string :=
  match s with
  | EmptyString => EmptyString
  | String c rest => encodeChar unescapedSet c ++ encodeWith unescapedSet rest
  end.

Definition Encode (s extraUnescaped : string) : string :=
  encodeWith (alwaysUnescaped ++ extraUnescaped) s.

Definition uriReservedAndHash : string := ";/?:@&=+$,#".

Definition encodeURI (uri : string) : string := Encode uri uriReservedAndHash.

(** [encodeURIComponent] is not called by the screen; it is the encoding
    that makes a text one path segment, against which the request URL is
    compared below. *)
Definition encodeURIComponent (uriComponent : string) : string :=
  Encode uriComponent "".

End URI.
Import URI.

(** ** The part of axios the screen reads *)

Module Axios.

Record AxiosResponse (T : Type) : Type := { data : T }.

(** [response] is optional: an error raised before any response arrived
    (network down, timeout) has none. *)
Record AxiosError (T : Type) : Type := { response : option (AxiosResponse T) }.

(** What a [catch] callback can receive: an error made by axios, or any
    other thrown value. *)
Inductive Caught (T : Type) : Type :=
| axiosError (e : AxiosError T)
| otherValue.

Arguments otherValue {T}.

End Axios.

(** ** Data model *)

Section Screen.

(** The interfaces [Word] and [FwewError] ([../lib/interfaces]) and the
    constant [apiRoot] ([../lib/settings]) are declared outside the
    component.  [emptyWord] and [emptyFwewError] are the casts
    [{} as Word] and [{} as FwewError] that initialise two state cells. *)
Variable Word : Type.
Variable FwewError : Type.
Variable emptyWord : Word.
Variable emptyFwewError : FwewError.
Variable apiRoot : string.

(** The fields of [settingsFwew] other than [isReverseEnabled], which the
    spread [...settingsFwew] carries over. *)
Variable FwewSettingsRest : Type.

Record SettingsGlobal : Type := {
  languageCodeUI : string;
  languageCode : string
}.

Record SettingsFwew : Type := {
  isReverseEnabled : bool;
  settingsFwewRest : FwewSettingsRest
}.

(** The value of [SettingsContext] read by [useContext]. *)
Record Settings : Type := {
  settingsGlobal : SettingsGlobal;
  settingsFwew : SettingsFwew
}.

(** A context that differs from [ctx] in the search direction and the
    language code only. *)
Definition settingsWith (reverse : bool) (lang : string) (ctx : Settings) : Settings :=
  {| settingsGlobal := {| languageCodeUI := languageCodeUI (settingsGlobal ctx);
                          languageCode := lang |};
     settingsFwew := {| isReverseEnabled := reverse;
                        settingsFwewRest := settingsFwewRest (settingsFwew ctx) |} |}.

(** The six [useState] cells of the component. *)
Record State : Type := {
  isLoading : bool;
  text : string;
  data : list Word;
  err : FwewError;
  isModalVisible : bool;
  selectedItem : Word
}.

(** The initial values given to [useState]. *)
Definition initialState : State := {|
  isLoading := true;
  text := "";
  data := [];
  err := emptyFwewError;
  isModalVisible := false;
  selectedItem := emptyWord
|}.

(** What a handler does besides writing state cells: calls into the
    settings context and HTTP requests, in the order they are made. *)
Inductive Call : Type :=
| onUpdateSettingsFwew (s : SettingsFwew)
| axios_get (url : string).

(** A handler runs over the state cells and the log of its calls. *)
Record Run : Type := {
  cells : State;
  calls : list Call
}.

Definition Handler : Type -> Type := state Run.

Definition setCells (f : State -> State) : Handler unit :=
  modify (fun r => {| cells := f (cells r); calls := calls r |}) ;; ret tt.

Definition call (c : Call) : Handler unit :=
  modify (fun r => {| cells := cells r; calls := calls r ++ [c] |}) ;; ret tt.

Definition setIsLoading (b : bool) : Handler unit :=
  setCells (fun s => {| isLoading := b; text := text s; data := data s;
                        err := err s; isModalVisible := isModalVisible s;
                        selectedItem := selectedItem s |}).

Definition setText (t : string) : Handler unit :=
  setCells (fun s => {| isLoading := isLoading s; text := t; data := data s;
                        err := err s; isModalVisible := isModalVisible s;
                        selectedItem := selectedItem s |}).

Definition setData (d : list Word) : Handler unit :=
  setCells (fun s => {| isLoading := isLoading s; text := text s; data := d;
                        err := err s; isModalVisible := isModalVisible s;
                        selectedItem := selectedItem s |}).

Definition setErr (e : FwewError) : Handler unit :=
  setCells (fun s => {| isLoading := isLoading s; text := text s; data := data s;
                        err := e; isModalVisible := isModalVisible s;
                        selectedItem := selectedItem s |}).

Definition setIsModalVisible (b : bool) : Handler unit :=
  setCells (fun s => {| isLoading := isLoading s; text := text s; data := data s;
                        err := err s; isModalVisible := b;
                        selectedItem := selectedItem s |}).

Definition setSelectedItem (w : Word) : Handler unit :=
  setCells (fun s => {| isLoading := isLoading s; text := text s; data := data s;
                        err := err s; isModalVisible := isModalVisible s;
                        selectedItem := w |}).

(** Running a handler from the current cells: its result, the cells it
    leaves and the calls it made. *)
Definition run {A : Type} (h : Handler A) (s : State) : A * State * list Call :=
  let (a, r) := runState h {| cells := s; calls := [] |} in (a, cells r, calls r).

Definition exec {A : Type} (h : Handler A) (s : State) : State * list Call :=
  let '(_, s', cs) := run h s in (s', cs).

(** ** The closures of one render

    A handler is a closure created by a render: it reads the state cells
    and the context as they were at that render ([now], [ctx]) and writes
    through the setters.  The header that holds [searchData] and
    [toggleReverse] is registered again whenever [isReverseEnabled], [text]
    or the language changes, so the closures in use are those of the current
    render. *)
Section Render.

Variable now : State.
Variable ctx : Settings.

(** JavaScript truthiness of an optional string argument: [!text] holds for
    [undefined] and for the empty string. *)
Definition falsy (t : option string) : bool :=
  match t with
  | None => true
  | Some s => String.eqb s ""
  end.

(** An optional string inside a template literal. *)
Definition interpolate (t : option string) : string :=
  match t with
  | None => "undefined"
  | Some s => s
  end.

Definition getEndpoint (text : option string) : string :=
  if falsy text then apiRoot ++ "/list/"
  else
    let languageCode := languageCode (settingsGlobal ctx) in
    if isReverseEnabled (settingsFwew ctx)
    then apiRoot ++ "/fwew/r/" ++ languageCode ++ "/" ++ interpolate text
    else apiRoot ++ "/fwew/" ++ interpolate text.

(** The synchronous part of [fetchData]; its promise callbacks are
    [onFulfilled] and [onRejected]. *)
Definition fetchData (endpoint : string) : Handler unit :=
  setIsLoading true ;;
  call (axios_get (encodeURI endpoint)).

Definition onFulfilled (response : Axios.AxiosResponse (list Word)) : Handler unit :=
  setData (Axios.data response) ;;
  setIsLoading false.

(** How a callback ends: normally, or by the [TypeError] of reading a
    property of [undefined]. *)
Inductive Completion : Type := normal | throwTypeError.

(** The [catch] callback.  The first [match] is [axios.isAxiosError(e)]
    with the cast to [AxiosError<FwewError>].  [serverError.response.data]
    is evaluated before [setErr] is called, so when [response] is
    [undefined] the callback throws with no setter called. *)
Definition onRejected (e : Axios.Caught FwewError) : Handler Completion :=
  match e with
  | Axios.axiosError serverError =>
      match Axios.response serverError with
      | Some response =>
          setErr (Axios.data response) ;;
          setData [] ;;
          setIsLoading false ;;
          ret normal
      | None => ret throwTypeError
      end
  | Axios.otherValue => ret normal
  end.

Definition toggleModal (item : Word) : Handler unit :=
  setIsModalVisible (negb (isModalVisible now)) ;;
  setSelectedItem item.

Definition onRefresh : Handler unit :=
  setData [] ;;
  fetchData (getEndpoint (Some (text now))).

Definition searchData (text : string) : Handler unit :=
  setText text ;;
  if String.eqb text ""
  then fetchData (apiRoot ++ "/list/")
  else fetchData (getEndpoint (Some text)).

Definition toggleReverse : Handler unit :=
  let newIsReverseEnabled := negb (isReverseEnabled (settingsFwew ctx)) in
  call (onUpdateSettingsFwew
          {| isReverseEnabled := newIsReverseEnabled;
             settingsFwewRest := settingsFwewRest (settingsFwew ctx) |}) ;;
  if String.eqb (text now) "" then ret tt
  else if newIsReverseEnabled
       then fetchData (apiRoot ++ "/fwew/r/" ++ languageCode (settingsGlobal ctx)
                               ++ "/" ++ text now)
       else fetchData (apiRoot ++ "/fwew/" ++ text now).

(** [onDismiss] of the modal. *)
Definition onDismiss : Handler unit := toggleModal (selectedItem now).

(** The [useEffect] that runs once after mount. *)
Definition mountEffect : Handler unit := fetchData (apiRoot ++ "/list/").

(** *** The main view

    The children of [mainView], with the props that come from state cells
    (the callbacks passed to [WordList] are the handlers above). *)
Inductive Element : Type :=
| ActivityIndicator
| ResultCount (data : list Word)
| WordList (data : list Word) (err : FwewError) (text : string)
           (isLoading posFilterEnabled : bool)
| EntryModalContent (entry : Word)
| Modal (visible : bool) (children : list Element)
| If (condition : bool) (children : list Element).

Definition render : list Element :=
  [ If (isLoading now) [ActivityIndicator];
    If (negb (isLoading now))
       [ResultCount (data now);
        WordList (data now) (err now) (text now) (isLoading now) true];
    Modal (isModalVisible now) [EntryModalContent (selectedItem now)] ].

End Render.

(** Modelled from the spec: the component [If] ([./if]) is not among the
    sources.  The screen ``reconciles the three possible outcomes (loading,
    success, error) into a single render'', so [If] is taken to show its
    children when its condition is true and nothing otherwise.  [shown]
    removes the [If] wrappers accordingly. *)
Fixpoint shown (e : Element) : list Element :=
  match e with
  | If condition children =>
      if condition then flat_map shown children else []
  | Modal visible children => [Modal visible (flat_map shown children)]
  | _ => [e]
  end.

(** ** The screen in its environment *)

(** The cells, the settings context and the requests that have not settled
    yet (their URLs, oldest first). *)
Record World : Type := {
  screen : State;
  settings : Settings;
  inFlight : list string
}.

(** Modelled from the spec: the provider of [SettingsContext]
    ([../context]) is not among the sources.  [onUpdateSettingsFwew(s)]
    ``persists the flag to SettingsStore'': the next render reads [s] as
    [settingsFwew].  A request made by [axios.get] is in flight until it
    settles. *)
Definition perform (w : World) (c : Call) : World :=
  match c with
  | onUpdateSettingsFwew s =>
      {| screen := screen w;
         settings := {| settingsGlobal := settingsGlobal (settings w);
                        settingsFwew := s |};
         inFlight := inFlight w |}
  | axios_get url =>
      {| screen := screen w; settings := settings w;
         inFlight := inFlight w ++ [url] |}
  end.

(** Running a closure of the current render. *)
Definition dispatch {A : Type} (h : State -> Settings -> Handler A) (w : World) : World :=
  let (s', cs) := exec (h (screen w) (settings w)) (screen w) in
  fold_left perform cs
            {| screen := s'; settings := settings w; inFlight := inFlight w |}.

(** After mount: the initial cells and the effect that fetches the list. *)
Definition mount (ctx : Settings) : World :=
  dispatch (fun _ _ => mountEffect)
           {| screen := initialState; settings := ctx; inFlight := [] |}.

Inductive Settlement : Type :=
| resolves (response : Axios.AxiosResponse (list Word))
| rejects (e : Axios.Caught FwewError).

Inductive Event : Type :=
| ChangeText (newText : string)
| PressToggle
| PullToRefresh
| SelectEntry (item : Word)
| DismissModal
| Settle (i : nat) (outcome : Settlement).

Fixpoint removeAt {A : Type} (i : nat) (l : list A) : list A :=
  match l, i with
  | [], _ => []
  | _ :: rest, O => rest
  | x :: rest, S j => x :: removeAt j rest
  end.

Definition settle (outcome : Settlement) : State -> Settings -> Handler unit :=
  fun _ _ =>
    match outcome with
    | resolves response => onFulfilled response
    | rejects e => onRejected e ;; ret tt
    end.

(** One event.  Pulling to refresh and selecting an entry come from the
    word list, which is rendered only when [isLoading] is false; the modal
    is dismissed only while visible; only a request in flight settles. *)
Definition step (w : World) (ev : Event) : option World :=
  match ev with
  | ChangeText newText => Some (dispatch (fun _ ctx => searchData ctx newText) w)
  | PressToggle => Some (dispatch toggleReverse w)
  | PullToRefresh =>
      if isLoading (screen w) then None else Some (dispatch onRefresh w)
  | SelectEntry item =>
      if isLoading (screen w) then None
      else Some (dispatch (fun now _ => toggleModal now item) w)
  | DismissModal =>
      if isModalVisible (screen w)
      then Some (dispatch (fun now _ => onDismiss now) w) else None
  | Settle i outcome =>
      match nth_error (inFlight w) i with
      | None => None
      | Some _ =>
          Some (dispatch (settle outcome)
                         {| screen := screen w; settings := settings w;
                            inFlight := removeAt i (inFlight w) |})
      end
  end.

Fixpoint steps (w : World) (evs : list Event) : option World :=
  match evs with
  | [] => Some w
  | ev :: rest =>
      match step w ev with
      | Some w' => steps w' rest
      | None => None
      end
  end.

(** The worlds a mounted screen can be in. *)
Inductive reachable : World -> Prop :=
| reachable_mount : forall ctx, reachable (mount ctx)
| reachable_step : forall w ev w',
    reachable w -> step w ev = Some w' -> reachable w'.

(** ** Properties *)

(** *** Strings and [encodeURI] *)

Lemma append_assoc : forall a b c : string, (a ++ b) ++ c = a ++ (b ++ c).
Proof.
  induction a as [|x a IH]; intros b c; simpl.
  - reflexivity.
  - now rewrite IH.
Qed.

Lemma encodeWith_append : forall set a b,
  encodeWith set (a ++ b) = encodeWith set a ++ encodeWith set b.
Proof.
  intros set a b; induction a as [|x a IH]; simpl.
  - reflexivity.
  - now rewrite IH, append_assoc.
Qed.

Lemma encodeURI_append : forall a b,
  encodeURI (a ++ b) = encodeURI a ++ encodeURI b.
Proof. intros a b; apply encodeWith_append. Qed.

Fixpoint allChars (p : ascii -> bool) (s : string) : bool :=
  match s with
  | EmptyString => true
  | String c rest => p c && allChars p rest
  end.

Lemma allChars_append : forall p a b,
  allChars p (a ++ b) = allChars p a && allChars p b.
Proof.
  intros p a b; induction a as [|x a IH]; simpl.
  - reflexivity.
  - now rewrite IH, andb_assoc.
Qed.

(** The characters [encodeURI] copies, and those its result is made of. *)
Definition kept (c : ascii) : bool :=
  contains (alwaysUnescaped ++ uriReservedAndHash) c.

Definition keptOrPercent (c : ascii) : bool := kept c || Ascii.eqb c "%".

Lemma encodeURI_String : forall c rest,
  encodeURI (String c rest)
  = (if kept c then String c "" else percentEscape c) ++ encodeURI rest.
Proof. reflexivity. Qed.

Lemma percentEscape_keptOrPercent : forall c,
  allChars keptOrPercent (percentEscape c) = true.
Proof.
  intros [b0 b1 b2 b3 b4 b5 b6 b7].
  destruct b0, b1, b2, b3, b4, b5, b6, b7; vm_compute; reflexivity.
Qed.

Lemma encodeURI_keptOrPercent : forall s,
  allChars keptOrPercent (encodeURI s) = true.
Proof.
  induction s as [|c s IH].
  - reflexivity.
  - rewrite encodeURI_String, allChars_append, IH, andb_true_r.
    destruct (kept c) eqn:K.
    + simpl; unfold keptOrPercent; now rewrite K.
    + apply percentEscape_keptOrPercent.
Qed.

Example encodeURI_lookup :
  encodeURI "https://fwew.example/api/fwew/r/en/the forest"
  = "https://fwew.example/api/fwew/r/en/the%20forest".
Proof. reflexivity. Qed.

(** A non-ASCII letter is escaped octet by octet (here [C3 AC]). *)
Example encodeURI_two_octets : encodeURI "tìng" = "t%C3%ACng".
Proof. reflexivity. Qed.

(** *** Running the handlers *)

Definition loading (s : State) : State :=
  {| isLoading := true; text := text s; data := data s; err := err s;
     isModalVisible := isModalVisible s; selectedItem := selectedItem s |}.

Lemma exec_fetchData : forall endpoint s,
  exec (fetchData endpoint) s = (loading s, [axios_get (encodeURI endpoint)]).
Proof. reflexivity. Qed.

Lemma falsy_Some : forall t, falsy (Some t) = String.eqb t "".
Proof. reflexivity. Qed.

Lemma exec_searchData : forall ctx t s,
  exec (searchData ctx t) s
  = ({| isLoading := true; text := t; data := data s; err := err s;
        isModalVisible := isModalVisible s; selectedItem := selectedItem s |},
     [axios_get (encodeURI (getEndpoint ctx (Some t)))]).
Proof.
  intros ctx t s; unfold searchData, getEndpoint; rewrite falsy_Some.
  destruct (String.eqb t ""); reflexivity.
Qed.

(** *** The endpoint *)

(** C1.  For every text, reverse flag and language code [getEndpoint]
    returns one of three literal shapes: [apiRoot/list/] when the text is
    empty, [apiRoot/fwew/r/<languageCode>/<text>] when the text is not empty
    and reverse is enabled, [apiRoot/fwew/<text>] when it is not empty and
    reverse is disabled.  In particular ["fmawn"], forward, gives
    [apiRoot/fwew/fmawn] and ["forest"], reverse, ["en"], gives
    [apiRoot/fwew/r/en/forest]. *)
Theorem getEndpoint_three_shapes :
  (forall ctx reverse lang text,
      let endpoint := getEndpoint (settingsWith reverse lang ctx) (Some text) in
      (text = "" /\ endpoint = apiRoot ++ "/list/") \/
      (text <> "" /\ reverse = true /\
       endpoint = apiRoot ++ "/fwew/r/" ++ lang ++ "/" ++ text) \/
      (text <> "" /\ reverse = false /\
       endpoint = apiRoot ++ "/fwew/" ++ text)) /\
  (forall ctx, getEndpoint (settingsWith false "en" ctx) (Some "fmawn")
               = apiRoot ++ "/fwew/fmawn") /\
  (forall ctx, getEndpoint (settingsWith true "en" ctx) (Some "forest")
               = apiRoot ++ "/fwew/r/en/forest").
Proof.
  split; [|split; reflexivity].
  intros ctx reverse lang t endpoint; subst endpoint.
  unfold getEndpoint; rewrite falsy_Some.
  destruct (String.eqb_spec t "") as [E|N].
  - left; split; [exact E | reflexivity].
  - right; destruct reverse; [left | right]; repeat split; auto.
Qed.

(** C9.  With the empty text the direction flag is irrelevant: for every
    language code, reverse enabled and reverse disabled both give
    [apiRoot/list/]. *)
Theorem getEndpoint_empty_text : forall ctx lang,
  getEndpoint (settingsWith true lang ctx) (Some "")
  = getEndpoint (settingsWith false lang ctx) (Some "") /\
  getEndpoint (settingsWith false lang ctx) (Some "") = apiRoot ++ "/list/".
Proof. intros ctx lang; split; reflexivity. Qed.

(** *** The modal *)

(** C10.  [toggleModal item] flips [isModalVisible], sets [selectedItem]
    to [item], leaves [text], [data], [err] and [isLoading] as they were and
    makes no call; dismissing the modal is [toggleModal] at the current
    [selectedItem], which therefore stays. *)
Theorem toggleModal_frame : forall now item,
  exec (toggleModal now item) now
  = ({| isLoading := isLoading now; text := text now; data := data now;
        err := err now; isModalVisible := negb (isModalVisible now);
        selectedItem := item |}, []) /\
  exec (onDismiss now) now
  = ({| isLoading := isLoading now; text := text now; data := data now;
        err := err now; isModalVisible := negb (isModalVisible now);
        selectedItem := selectedItem now |}, []).
Proof. intros now item; split; reflexivity. Qed.

(** *** Settling a request *)

(** C5.  A rejection by an axios error whose response carries a body
    leaves [data] empty, [err] equal to that body and [isLoading] false
    (the other cells are kept, no call is made, the callback ends normally). *)
Theorem onRejected_with_body : forall now body,
  run (onRejected (Axios.axiosError
                     {| Axios.response := Some {| Axios.data := body |} |})) now
  = (normal,
     {| isLoading := false; text := text now; data := []; err := body;
        isModalVisible := isModalVisible now;
        selectedItem := selectedItem now |},
     []) /\
  length (data (fst (exec (onRejected (Axios.axiosError
                     {| Axios.response := Some {| Axios.data := body |} |})) now))) = 0.
Proof. intros now body; split; reflexivity. Qed.

(** Does the caught value carry a response body? *)
Definition carriesBody (e : Axios.Caught FwewError) : bool :=
  match e with
  | Axios.axiosError serverError =>
      match Axios.response serverError with
      | Some _ => true
      | None => false
      end
  | Axios.otherValue => false
  end.

Lemma onRejected_without_body_unchanged : forall e s,
  carriesBody e = false -> exec (onRejected e) s = (s, []).
Proof.
  intros [[[r|]]|] s H; simpl in H; try discriminate; destruct s; reflexivity.
Qed.

(** C6 (amended).  A rejection with no response at all (a thrown value
    that is not an axios error, or an axios error without a response, as
    when the network is down or the request times out) changes no state
    cell and makes no call: [data], [err] and [text] are as before and
    [isLoading], set by [fetchData], is still true; after mount, such a
    rejection leaves the screen loading with no request in flight.  A
    rejection whose response is present is never swallowed, whatever its
    body: the callback does not look at the body, stores it in [err],
    empties [data] and ends loading. *)
Theorem onRejected_by_response : forall now ctx endpoint e body,
  carriesBody e = false ->
  (exec (onRejected e) now = (now, []) /\
   isLoading (fst (exec (onRejected e) (fst (exec (fetchData endpoint) now)))) = true /\
   step (mount ctx) (Settle 0 (rejects e))
   = Some {| screen := initialState; settings := ctx; inFlight := [] |}) /\
  (exec (onRejected (Axios.axiosError
                       {| Axios.response := Some {| Axios.data := body |} |})) now
   = ({| isLoading := false; text := text now; data := []; err := body;
         isModalVisible := isModalVisible now;
         selectedItem := selectedItem now |}, []) /\
   step (mount ctx)
        (Settle 0 (rejects (Axios.axiosError
                              {| Axios.response := Some {| Axios.data := body |} |})))
   = Some {| screen := {| isLoading := false; text := ""; data := [];
                          err := body; isModalVisible := false;
                          selectedItem := emptyWord |};
             settings := ctx; inFlight := [] |}).
Proof.
  intros now ctx endpoint e body H; split; [|split; reflexivity].
  repeat split.
  - now apply onRejected_without_body_unchanged.
  - rewrite exec_fetchData; simpl fst.
    now rewrite (onRejected_without_body_unchanged e _ H).
  - destruct e as [[[r|]]|]; simpl in H; try discriminate; reflexivity.
Qed.

(** *** Search direction *)

(** C7.  [toggleReverse] always calls [onUpdateSettingsFwew] with the flag
    flipped (the other settings kept), so the next render reads the flipped
    flag.  When [text] is not empty it also starts one fetch, of the
    endpoint built under the flipped direction, and does nothing else than
    that and setting [isLoading]; when [text] is empty the update of the
    settings is all it does: no request, no state cell written. *)
Theorem toggleReverse_effect : forall now ctx pending,
  let flipped := {| isReverseEnabled := negb (isReverseEnabled (settingsFwew ctx));
                    settingsFwewRest := settingsFwewRest (settingsFwew ctx) |} in
  let ctx' := {| settingsGlobal := settingsGlobal ctx; settingsFwew := flipped |} in
  let request := axios_get (encodeURI (getEndpoint ctx' (Some (text now)))) in
  exec (toggleReverse now ctx) now
  = (if String.eqb (text now) ""
     then (now, [onUpdateSettingsFwew flipped])
     else (loading now, [onUpdateSettingsFwew flipped; request])) /\
  step {| screen := now; settings := ctx; inFlight := pending |} PressToggle
  = Some (if String.eqb (text now) ""
          then {| screen := now; settings := ctx'; inFlight := pending |}
          else {| screen := loading now; settings := ctx';
                  inFlight := pending ++ [encodeURI (getEndpoint ctx' (Some (text now)))] |}).
Proof.
  intros now ctx pending flipped ctx' request.
  assert (E : exec (toggleReverse now ctx) now
              = (if String.eqb (text now) ""
                 then (now, [onUpdateSettingsFwew flipped])
                 else (loading now, [onUpdateSettingsFwew flipped; request]))).
  { subst request ctx' flipped.
    unfold toggleReverse, getEndpoint; rewrite falsy_Some.
    destruct (String.eqb (text now) "") eqn:T.
    - destruct now; reflexivity.
    - simpl isReverseEnabled.
      destruct (isReverseEnabled (settingsFwew ctx)); reflexivity. }
  split; [exact E|].
  unfold step, dispatch; simpl screen; simpl settings; rewrite E.
  destruct (String.eqb (text now) ""); reflexivity.
Qed.

(** *** Starting a fetch and showing its outcome *)

Lemma shown_render : forall s,
  flat_map shown (render s)
  = if isLoading s
    then [ActivityIndicator;
          Modal (isModalVisible s) [EntryModalContent (selectedItem s)]]
    else [ResultCount (data s);
          WordList (data s) (err s) (text s) false true;
          Modal (isModalVisible s) [EntryModalContent (selectedItem s)]].
Proof. intros s; unfold render; destruct (isLoading s); reflexivity. Qed.

Lemma steps_reachable : forall evs w w',
  reachable w -> steps w evs = Some w' -> reachable w'.
Proof.
  induction evs as [|ev evs IH]; simpl; intros w w' R H.
  - now inversion H; subst.
  - destruct (step w ev) as [w1|] eqn:S; [|discriminate].
    exact (IH _ _ (reachable_step ev R S) H).
Qed.

(** C4 (amended).  A successful response with N records leaves [data] of
    length N and [isLoading] false, writes no other cell and makes no call;
    [err] is what it was before the response.  So no error is present after
    the response when none was stored before it, as for the first response
    after mount. *)
Theorem onFulfilled_result : forall now ctx records,
  exec (onFulfilled {| Axios.data := records |}) now
  = ({| isLoading := false; text := text now; data := records; err := err now;
        isModalVisible := isModalVisible now;
        selectedItem := selectedItem now |}, []) /\
  length (data (fst (exec (onFulfilled {| Axios.data := records |}) now)))
  = length records /\
  step (mount ctx) (Settle 0 (resolves {| Axios.data := records |}))
  = Some {| screen := {| isLoading := false; text := ""; data := records;
                         err := emptyFwewError; isModalVisible := false;
                         selectedItem := emptyWord |};
            settings := ctx; inFlight := [] |}.
Proof. intros now ctx records; repeat split. Qed.

(** C2 (amended).  Every fetch trigger sets [isLoading] at the start of the
    fetch, and while [isLoading] is set the result count and the word list
    are not shown.  [data] is empty at that point at mount (its initial
    value) and on pull-to-refresh (which resets it); a text change and a
    direction toggle leave [data] as it was. *)
Theorem fetch_start : forall now ctx newText,
  exec mountEffect initialState
  = (initialState, [axios_get (encodeURI (apiRoot ++ "/list/"))]) /\
  (let s := fst (exec (onRefresh now ctx) now) in
   isLoading s = true /\ data s = []) /\
  (let s := fst (exec (searchData ctx newText) now) in
   isLoading s = true /\ data s = data now) /\
  (let s := fst (exec (toggleReverse now ctx) now) in
   isLoading s = (if String.eqb (text now) "" then isLoading now else true) /\
   data s = data now) /\
  (forall s, isLoading s = true ->
     flat_map shown (render s)
     = [ActivityIndicator;
        Modal (isModalVisible s) [EntryModalContent (selectedItem s)]]).
Proof.
  intros now ctx newText; repeat split.
  - unfold searchData; destruct (String.eqb newText ""); reflexivity.
  - unfold searchData; destruct (String.eqb newText ""); reflexivity.
  - unfold toggleReverse.
    destruct (String.eqb (text now) ""), (isReverseEnabled (settingsFwew ctx));
      reflexivity.
  - unfold toggleReverse.
    destruct (String.eqb (text now) ""), (isReverseEnabled (settingsFwew ctx));
      reflexivity.
  - intros s L; rewrite shown_render, L; reflexivity.
Qed.

(** C3 (amended).  In every state exactly one of the two views is shown,
    chosen by [isLoading] alone: the activity indicator when it is true, the
    result count with the word list (which receives [data] and [err]
    together) when it is false.  Neither [data] nor [err] takes part in the
    choice. *)
Theorem one_view_shown : forall s,
  let view := flat_map shown (render s) in
  let indicator := ActivityIndicator in
  let wordList := WordList (data s) (err s) (text s) (isLoading s) true in
  (In indicator view <-> isLoading s = true) /\
  (In wordList view <-> isLoading s = false) /\
  (In indicator view \/ In wordList view) /\
  ~ (In indicator view /\ In wordList view) /\
  view = ((if isLoading s then [indicator] else [ResultCount (data s); wordList])
          ++ [Modal (isModalVisible s) [EntryModalContent (selectedItem s)]])%list.
Proof.
  intros s view indicator wordList; subst view indicator wordList.
  rewrite shown_render.
  destruct (isLoading s); simpl.
  - repeat split; auto.
    + intros [H|[H|[]]]; discriminate H.
    + intros H; discriminate H.
    + intros [_ [H|[H|[]]]]; discriminate H.
  - repeat split; auto.
    + intros [H|[H|[H|[]]]]; discriminate H.
    + intros H; discriminate H.
    + intros [[H|[H|[H|[]]]] _]; discriminate H.
Qed.

(** *** The request URL *)

(** C8 (amended).  The whole endpoint, not the text alone, is passed
    through [encodeURI] when the request is made.  The URL requested for a
    text is therefore the encoded [apiRoot], the fixed path, and the encoded
    text (after the encoded language code when reverse is enabled).
    [encodeURI] copies the letters, the digits and [-_.!~*'();/?:@&=+$,#],
    and replaces every other character by [%XX] escapes, so the encoded text
    consists of copied characters and escapes only; the reserved characters
    [/], [?] and [#] are among the copied ones. *)
Theorem request_url_encodeURI : forall now ctx text,
  (forall endpoint,
      snd (exec (fetchData endpoint) now) = [axios_get (encodeURI endpoint)]) /\
  snd (exec (searchData ctx text) now)
  = [axios_get
       (encodeURI apiRoot ++
        (if String.eqb text "" then "/list/"
         else if isReverseEnabled (settingsFwew ctx)
              then "/fwew/r/" ++ encodeURI (languageCode (settingsGlobal ctx))
                              ++ "/" ++ encodeURI text
              else "/fwew/" ++ encodeURI text))] /\
  allChars keptOrPercent (encodeURI text) = true /\
  (forall c rest,
      encodeURI (String c rest)
      = (if kept c then String c "" else percentEscape c) ++ encodeURI rest) /\
  encodeURI "/?#" = "/?#" /\
  encodeURI " %" = "%20%25".
Proof.
  intros now ctx t; split; [reflexivity|]; split.
  - rewrite exec_searchData; simpl snd.
    unfold getEndpoint; rewrite falsy_Some.
    destruct (String.eqb t "").
    + rewrite encodeURI_append; reflexivity.
    + simpl interpolate.
      destruct (isReverseEnabled (settingsFwew ctx));
        repeat rewrite encodeURI_append; reflexivity.
  - split; [apply encodeURI_keptOrPercent|].
    split; [exact encodeURI_String|split; reflexivity].
Qed.

(** ** More of the screen

    The remaining handlers in their environment, the clear button of the
    header, and what holds along every run of events. *)

(** The clear button of the search bar is rendered under
    [Platform.OS !== 'ios' && !!text] and runs [searchData('')]. *)
Definition clearButtonShown (os : string) (now : State) : bool :=
  negb (String.eqb os "ios") && negb (falsy (Some (text now))).

Definition pressClear (ctx : Settings) : Handler unit := searchData ctx "".

(** The direction flag and the text along a run: what the toggle presses
    and the text changes of the run make of them. *)
Definition flips (evs : list Event) (reverse : bool) : bool :=
  fold_left (fun b ev => match ev with PressToggle => negb b | _ => b end)
            evs reverse.

Definition typed (evs : list Event) (t : string) : string :=
  fold_left (fun t ev => match ev with ChangeText newText => newText | _ => t end)
            evs t.

(** A requested URL is the encoded [apiRoot] followed by the list path or
    by a lookup path. *)
Definition requestShape (url : string) : Prop :=
  url = encodeURI apiRoot ++ "/list/" \/
  exists rest, url = encodeURI apiRoot ++ "/fwew/" ++ rest.

(** *** One event at a time *)

Lemma exec_toggleReverse : forall now ctx,
  exec (toggleReverse now ctx) now
  = let flipped := {| isReverseEnabled := negb (isReverseEnabled (settingsFwew ctx));
                      settingsFwewRest := settingsFwewRest (settingsFwew ctx) |} in
    if String.eqb (text now) ""
    then (now, [onUpdateSettingsFwew flipped])
    else (loading now,
          [onUpdateSettingsFwew flipped;
           axios_get (encodeURI (getEndpoint
                                   {| settingsGlobal := settingsGlobal ctx;
                                      settingsFwew := flipped |}
                                   (Some (text now))))]).
Proof.
  intros now ctx; cbv zeta.
  unfold toggleReverse, getEndpoint; rewrite falsy_Some.
  destruct (String.eqb (text now) "") eqn:T.
  - destruct now; reflexivity.
  - simpl isReverseEnabled.
    destruct (isReverseEnabled (settingsFwew ctx)); reflexivity.
Qed.

Lemma exec_onRefresh : forall now ctx,
  exec (onRefresh now ctx) now
  = ({| isLoading := true; text := text now; data := []; err := err now;
        isModalVisible := isModalVisible now;
        selectedItem := selectedItem now |},
     [axios_get (encodeURI (getEndpoint ctx (Some (text now))))]).
Proof. reflexivity. Qed.

Lemma step_ChangeText : forall w t,
  step w (ChangeText t)
  = Some {| screen := {| isLoading := true; text := t; data := data (screen w);
                         err := err (screen w);
                         isModalVisible := isModalVisible (screen w);
                         selectedItem := selectedItem (screen w) |};
            settings := settings w;
            inFlight := inFlight w ++ [encodeURI (getEndpoint (settings w) (Some t))] |}.
Proof.
  intros w t; unfold step, dispatch; rewrite exec_searchData; reflexivity.
Qed.

Lemma step_PressToggle : forall w,
  step w PressToggle
  = let ctx' := settingsWith (negb (isReverseEnabled (settingsFwew (settings w))))
                             (languageCode (settingsGlobal (settings w)))
                             (settings w) in
    Some (if String.eqb (text (screen w)) ""
          then {| screen := screen w; settings := ctx'; inFlight := inFlight w |}
          else {| screen := loading (screen w); settings := ctx';
                  inFlight := inFlight w
                              ++ [encodeURI (getEndpoint ctx' (Some (text (screen w))))] |}).
Proof.
  intros w; cbv zeta; unfold step, dispatch; rewrite exec_toggleReverse; cbv zeta.
  destruct (String.eqb (text (screen w)) "") eqn:T.
  - destruct w as [s [[ui lang] [rev rest]] fl]; reflexivity.
  - destruct w as [s [[ui lang] [rev rest]] fl]; simpl in *.
    unfold getEndpoint; simpl; rewrite T; reflexivity.
Qed.

Lemma step_Settle_resolves : forall w i response,
  step w (Settle i (resolves response))
  = match nth_error (inFlight w) i with
    | None => None
    | Some _ =>
        Some {| screen := {| isLoading := false; text := text (screen w);
                             data := Axios.data response; err := err (screen w);
                             isModalVisible := isModalVisible (screen w);
                             selectedItem := selectedItem (screen w) |};
                settings := settings w;
                inFlight := removeAt i (inFlight w) |}
    end.
Proof.
  intros w i response; unfold step; destruct (nth_error (inFlight w) i); reflexivity.
Qed.

Lemma step_Settle_rejects : forall w i e,
  step w (Settle i (rejects e))
  = match nth_error (inFlight w) i with
    | None => None
    | Some _ =>
        Some {| screen := fst (exec (onRejected e) (screen w));
                settings := settings w;
                inFlight := removeAt i (inFlight w) |}
    end.
Proof.
  intros w i e; unfold step; destruct (nth_error (inFlight w) i); [|reflexivity].
  destruct e as [[[r|]]|]; reflexivity.
Qed.

Lemma onRejected_frame : forall e s,
  let s' := fst (exec (onRejected e) s) in
  text s' = text s /\ isModalVisible s' = isModalVisible s /\
  selectedItem s' = selectedItem s.
Proof. intros [[[r|]]|] s; repeat split. Qed.


Lemma removeAt_In : forall (A : Type) (l : list A) i x,
  In x (removeAt i l) -> In x l.
Proof.
  induction l as [|y l IH]; intros [|i] x H; simpl in *; auto.
  destruct H as [H|H]; [now left | right; eauto].
Qed.

(** *** Handlers composed *)

(** X1.  [searchData] is: set the text, then fetch the endpoint of that
    text.  Its test for the empty text changes nothing, [getEndpoint] gives
    the list endpoint there already; whatever the text, one request is made
    and [data], [err] and the modal cells are left alone. *)
Theorem searchData_is_setText_then_fetch : forall ctx t now,
  exec (searchData ctx t) now
  = exec (setText t ;; fetchData (getEndpoint ctx (Some t))) now /\
  length (snd (exec (searchData ctx t) now)) = 1 /\
  (let s := fst (exec (searchData ctx t) now) in
   text s = t /\ data s = data now /\ err s = err now /\
   isModalVisible s = isModalVisible now /\ selectedItem s = selectedItem now).
Proof.
  intros ctx t now; rewrite exec_searchData; repeat split.
Qed.

(** X2.  Pull-to-refresh is: empty the results, then search the current
    text again.  It requests the URL a text change to the current text
    would request, and leaves [text] and [err] as they are. *)
Theorem onRefresh_is_clear_then_search : forall now ctx,
  exec (onRefresh now ctx) now
  = exec (setData [] ;; searchData ctx (text now)) now /\
  snd (exec (onRefresh now ctx) now) = snd (exec (searchData ctx (text now)) now) /\
  text (fst (exec (onRefresh now ctx) now)) = text now /\
  err (fst (exec (onRefresh now ctx) now)) = err now.
Proof.
  intros now ctx; rewrite exec_onRefresh, exec_searchData; repeat split.
  unfold searchData, getEndpoint; rewrite falsy_Some.
  destruct (String.eqb (text now) "") eqn:T; [|reflexivity].
  destruct now as [l t d e v i]; simpl in *.
  apply String.eqb_eq in T; subst t; reflexivity.
Qed.

(** X3.  Pressing the direction toggle twice restores the settings.  With
    an empty text the two presses change nothing at all; with a text they
    leave two more requests in flight, first the lookup in the flipped
    direction, then the lookup in the original one, and the screen
    loading. *)
Theorem toggle_twice : forall w,
  let ctx := settings w in
  let t := text (screen w) in
  let flipped := settingsWith (negb (isReverseEnabled (settingsFwew ctx)))
                              (languageCode (settingsGlobal ctx)) ctx in
  steps w [PressToggle; PressToggle]
  = Some (if String.eqb t ""
          then w
          else {| screen := loading (screen w); settings := ctx;
                  inFlight := inFlight w
                              ++ [encodeURI (getEndpoint flipped (Some t));
                                  encodeURI (getEndpoint ctx (Some t))] |}).
Proof.
  intros w ctx t flipped; subst ctx t flipped.
  unfold steps; rewrite step_PressToggle; cbv zeta.
  destruct (String.eqb (text (screen w)) "") eqn:T;
    rewrite step_PressToggle; cbv zeta; simpl screen; try rewrite T;
    destruct w as [s [[ui lang] [rev rest]] fl]; simpl in *;
    rewrite ?negb_involutive; try reflexivity.
  rewrite T, <- app_assoc; reflexivity.
Qed.

(** X4.  Selecting an entry and then dismissing the modal, from a screen
    that shows the word list with the modal closed, changes one cell only:
    [selectedItem] is the selected entry.  The modal is closed again, no
    request is made and no setting is touched. *)
Theorem select_then_dismiss : forall w item,
  isLoading (screen w) = false ->
  isModalVisible (screen w) = false ->
  steps w [SelectEntry item; DismissModal]
  = Some {| screen := {| isLoading := false; text := text (screen w);
                         data := data (screen w); err := err (screen w);
                         isModalVisible := false; selectedItem := item |};
            settings := settings w; inFlight := inFlight w |}.
Proof.
  intros [[l t d e v i] ctx fl] item L V; simpl in L, V; subst l v.
  reflexivity.
Qed.

(** X5.  Pressing the clear button empties [text] and requests the
    unfiltered list, whatever the search direction; after it the clear
    button is not rendered on any platform. *)
Theorem pressClear_effect : forall ctx now os,
  exec (pressClear ctx) now
  = ({| isLoading := true; text := ""; data := data now; err := err now;
        isModalVisible := isModalVisible now;
        selectedItem := selectedItem now |},
     [axios_get (encodeURI (apiRoot ++ "/list/"))]) /\
  clearButtonShown os (fst (exec (pressClear ctx) now)) = false /\
  clearButtonShown os initialState = false.
Proof.
  intros ctx now os; repeat split; unfold clearButtonShown; simpl;
    apply andb_false_r.
Qed.

(** X6.  What is shown once a request has settled.  After a response the
    word list is shown with the records of the response and with [err] as
    it was before, so an error payload of an earlier failure is still
    passed to the list; after a rejection with a body the list is shown
    empty with that body; after a rejection without a body the view is the
    one before the rejection. *)
Theorem view_after_settle : forall now records body e,
  flat_map shown (render (fst (exec (onFulfilled {| Axios.data := records |}) now)))
  = [ResultCount records;
     WordList records (err now) (text now) false true;
     Modal (isModalVisible now) [EntryModalContent (selectedItem now)]] /\
  flat_map shown
    (render (fst (exec (onRejected
                          (Axios.axiosError
                             {| Axios.response := Some {| Axios.data := body |} |}))
                       now)))
  = [ResultCount [];
     WordList [] body (text now) false true;
     Modal (isModalVisible now) [EntryModalContent (selectedItem now)]] /\
  (carriesBody e = false ->
   flat_map shown (render (fst (exec (onRejected e) now)))
   = flat_map shown (render now)).
Proof.
  intros now records body e; repeat split.
  intros H; now rewrite (onRejected_without_body_unchanged e now H).
Qed.

(** *** Along every run *)

Lemma encodeURI_getEndpoint_shape : forall ctx t,
  requestShape (encodeURI (getEndpoint ctx t)).
Proof.
  intros ctx t; unfold getEndpoint, requestShape.
  destruct (falsy t).
  - left; rewrite encodeURI_append; reflexivity.
  - right; destruct (isReverseEnabled (settingsFwew ctx));
      rewrite encodeURI_append; eexists;
      [ change "/fwew/r/" with ("/fwew/" ++ "r/") | ];
      rewrite ?append_assoc, (encodeURI_append "/fwew/"); reflexivity.
Qed.

Lemma step_inFlight : forall w ev w' url,
  step w ev = Some w' -> In url (inFlight w') ->
  In url (inFlight w) \/ exists ctx t, url = encodeURI (getEndpoint ctx t).
Proof.
  intros w ev w' url H I; destruct ev as [t| | |item| |i outcome].
  - rewrite step_ChangeText in H; inversion H; subst w'; simpl in I.
    apply in_app_or in I; destruct I as [I|[I|[]]]; eauto.
  - rewrite step_PressToggle in H; cbv zeta in H.
    destruct (String.eqb (text (screen w)) ""); inversion H; subst w';
      simpl in I; auto.
    apply in_app_or in I; destruct I as [I|[I|[]]]; eauto.
  - unfold step in H; destruct (isLoading (screen w)); [discriminate|].
    inversion H; subst w'; unfold dispatch in I; rewrite exec_onRefresh in I.
    simpl in I; apply in_app_or in I; destruct I as [I|[I|[]]]; eauto.
  - unfold step in H; destruct (isLoading (screen w)); [discriminate|].
    inversion H; subst w'; auto.
  - unfold step in H; destruct (isModalVisible (screen w)); [|discriminate].
    inversion H; subst w'; auto.
  - destruct outcome as [response|e];
      [rewrite step_Settle_resolves in H | rewrite step_Settle_rejects in H];
      destruct (nth_error (inFlight w) i); try discriminate;
      inversion H; subst w'; simpl in I; left; eapply removeAt_In; eauto.
Qed.

Lemma step_frame : forall w ev w',
  step w ev = Some w' ->
  settingsGlobal (settings w') = settingsGlobal (settings w) /\
  settingsFwewRest (settingsFwew (settings w'))
  = settingsFwewRest (settingsFwew (settings w)) /\
  isReverseEnabled (settingsFwew (settings w'))
  = flips [ev] (isReverseEnabled (settingsFwew (settings w))) /\
  text (screen w') = typed [ev] (text (screen w)).
Proof.
  intros w ev w' H; destruct ev as [t| | |item| |i outcome].
  - rewrite step_ChangeText in H; inversion H; subst w'; repeat split.
  - rewrite step_PressToggle in H; cbv zeta in H.
    destruct (String.eqb (text (screen w)) ""); inversion H; subst w';
      destruct w as [s [[ui lang] [rev rest]] fl]; repeat split.
  - unfold step in H; destruct (isLoading (screen w)); [discriminate|].
    inversion H; subst w'; unfold dispatch; rewrite exec_onRefresh.
    repeat split.
  - unfold step in H; destruct (isLoading (screen w)); [discriminate|].
    inversion H; subst w'; repeat split.
  - unfold step in H; destruct (isModalVisible (screen w)); [|discriminate].
    inversion H; subst w'; repeat split.
  - destruct outcome as [response|e];
      [rewrite step_Settle_resolves in H | rewrite step_Settle_rejects in H];
      destruct (nth_error (inFlight w) i); try discriminate;
      inversion H; subst w'; repeat split.
    apply onRejected_frame.
Qed.

(** X7.  Every request that is in flight, in every world the mounted
    screen can reach, was made to the encoded [apiRoot] followed by
    [/list/] or by [/fwew/...], and its URL holds only characters that
    [encodeURI] copies and [%]. *)
Theorem requests_wellformed : forall w,
  reachable w ->
  Forall (fun url => requestShape url /\ allChars keptOrPercent url = true)
         (inFlight w).
Proof.
  intros w R; induction R as [ctx | w ev w' R IH H].
  - constructor; [|constructor]; split.
    + apply (encodeURI_getEndpoint_shape ctx None).
    + apply encodeURI_keptOrPercent.
  - apply Forall_forall; intros url I.
    destruct (step_inFlight _ _ _ H I) as [J|[ctx [t E]]].
    + exact (proj1 (Forall_forall _ _) IH url J).
    + subst url; split.
      * apply encodeURI_getEndpoint_shape.
      * apply encodeURI_keptOrPercent.
Qed.

(** X8.  Along any run of events the screen changes one setting only: the
    direction flag, flipped once by each press of the toggle.  The language
    codes and the other Fwew settings stay as they were; no text change,
    refresh, modal event, response or failure touches a setting. *)
Theorem settings_along_run : forall evs w w',
  steps w evs = Some w' ->
  settingsGlobal (settings w') = settingsGlobal (settings w) /\
  settingsFwewRest (settingsFwew (settings w'))
  = settingsFwewRest (settingsFwew (settings w)) /\
  isReverseEnabled (settingsFwew (settings w'))
  = flips evs (isReverseEnabled (settingsFwew (settings w))).
Proof.
  induction evs as [|ev evs IH]; simpl; intros w w' H.
  - inversion H; subst; repeat split.
  - destruct (step w ev) as [w1|] eqn:S; [|discriminate].
    destruct (step_frame _ _ S) as (G & F & V & _).
    destruct (IH _ _ H) as (G' & F' & V').
    rewrite G', F', V', G, F, V; repeat split.
Qed.

(** X9.  Along any run of events [text] is the text of the last text
    change (the text before the run if there was none): responses,
    failures, toggles, refreshes and modal events never write it. *)
Theorem text_along_run : forall evs w w',
  steps w evs = Some w' ->
  text (screen w') = typed evs (text (screen w)).
Proof.
  induction evs as [|ev evs IH]; simpl; intros w w' H.
  - now inversion H; subst.
  - destruct (step w ev) as [w1|] eqn:S; [|discriminate].
    destruct (step_frame _ _ S) as (_ & _ & _ & T).
    rewrite (IH _ _ H), T; reflexivity.
Qed.




Lemma nth_error_app_last : forall (A : Type) (l : list A) x,
  nth_error (l ++ [x]) (length l) = Some x.
Proof. induction l as [|y l IH]; intros x; simpl; auto. Qed.

Lemma removeAt_app_last : forall (A : Type) (l : list A) x,
  removeAt (length l) (l ++ [x]) = l.
Proof. induction l as [|y l IH]; intros x; simpl; [|rewrite IH]; reflexivity. Qed.

(** X11.  The response that settles last wins, whichever request it
    answers.  After two text changes, if the request of the second text is
    answered first and the request of the first text afterwards, the screen
    ends with the second text in [text] and the records for the first text
    in [data], not loading, with the earlier requests still in flight. *)
Theorem last_response_wins : forall w a b recordsA recordsB,
  let n := length (inFlight w) in
  steps w [ChangeText a; ChangeText b;
           Settle (S n) (resolves {| Axios.data := recordsB |});
           Settle n (resolves {| Axios.data := recordsA |})]
  = Some {| screen := {| isLoading := false; text := b; data := recordsA;
                         err := err (screen w);
                         isModalVisible := isModalVisible (screen w);
                         selectedItem := selectedItem (screen w) |};
            settings := settings w;
            inFlight := inFlight w |}.
Proof.
  intros w a b recordsA recordsB n; subst n; unfold steps.
  rewrite step_ChangeText, step_ChangeText, step_Settle_resolves.
  simpl inFlight; simpl settings.
  set (l := (inFlight w ++ [encodeURI (getEndpoint (settings w) (Some a))])%list).
  assert (L : length l = S (length (inFlight w))).
  { subst l; rewrite length_app; simpl; now rewrite Nat.add_1_r. }
  rewrite <- L, nth_error_app_last, removeAt_app_last.
  rewrite step_Settle_resolves; simpl inFlight; subst l.
  rewrite nth_error_app_last, removeAt_app_last; reflexivity.
Qed.

(** *** Texts and URLs *)

Lemma append_cancel_l : forall p a b : string, p ++ a = p ++ b -> a = b.
Proof.
  induction p as [|x p IH]; simpl; intros a b H.
  - exact H.
  - inversion H; auto.
Qed.

(** The value of a hexadecimal digit. *)
Fixpoint indexOf (c : ascii) (s : string) : N :=
  match s with
  | EmptyString => 0
  | String d rest => if Ascii.eqb c d then 0 else N.succ (indexOf c rest)
  end.

Definition unescape (s : string) : option ascii :=
  match s with
  | String _ (String hi (String lo _)) =>
      Some (ascii_of_N (16 * indexOf hi hexDigits + indexOf lo hexDigits))
  | _ => None
  end.

Lemma unescape_percentEscape : forall c rest,
  unescape (percentEscape c ++ rest) = Some c.
Proof.
  intros [b0 b1 b2 b3 b4 b5 b6 b7] rest.
  destruct b0, b1, b2, b3, b4, b5, b6, b7; reflexivity.
Qed.

Lemma percentEscape_append_inj : forall c1 c2 r1 r2,
  percentEscape c1 ++ r1 = percentEscape c2 ++ r2 -> c1 = c2 /\ r1 = r2.
Proof.
  intros c1 c2 r1 r2 H.
  assert (E : c1 = c2).
  { pose proof (unescape_percentEscape c1 r1) as U1.
    rewrite H, unescape_percentEscape in U1; now inversion U1. }
  subst c2; split; [reflexivity|].
  unfold percentEscape in H; simpl in H; now inversion H.
Qed.

Lemma percentEscape_head : forall c rest,
  exists tail, percentEscape c ++ rest = String "%" tail.
Proof. intros c rest; eexists; reflexivity. Qed.

Lemma encodeURI_inj : forall s1 s2, encodeURI s1 = encodeURI s2 -> s1 = s2.
Proof.
  induction s1 as [|c1 s1 IH]; intros [|c2 s2] H.
  - reflexivity.
  - rewrite encodeURI_String in H; destruct (kept c2); discriminate H.
  - rewrite encodeURI_String in H; destruct (kept c1); discriminate H.
  - rewrite !encodeURI_String in H.
    destruct (kept c1) eqn:K1, (kept c2) eqn:K2.
    + simpl in H; inversion H; subst; f_equal; auto.
    + destruct (percentEscape_head c2 (encodeURI s2)) as [tl E].
      rewrite E in H; simpl in H; inversion H; subst c1; discriminate K1.
    + destruct (percentEscape_head c1 (encodeURI s1)) as [tl E].
      rewrite E in H; simpl in H; inversion H; subst c2; discriminate K2.
    + apply percentEscape_append_inj in H; destruct H as [E R].
      subst; f_equal; auto.
Qed.

Lemma getEndpoint_inj : forall ctx t1 t2,
  getEndpoint ctx (Some t1) = getEndpoint ctx (Some t2) -> t1 = t2.
Proof.
  intros ctx t1 t2; unfold getEndpoint; rewrite !falsy_Some; simpl interpolate.
  destruct (String.eqb_spec t1 "") as [E1|N1], (String.eqb_spec t2 "") as [E2|N2];
    intros H.
  - congruence.
  - destruct (isReverseEnabled (settingsFwew ctx));
      apply append_cancel_l in H; discriminate H.
  - destruct (isReverseEnabled (settingsFwew ctx));
      apply append_cancel_l in H; discriminate H.
  - destruct (isReverseEnabled (settingsFwew ctx));
      apply append_cancel_l in H.
    + apply (append_cancel_l "/fwew/r/") in H.
      apply append_cancel_l in H.
      exact (append_cancel_l "/" _ _ H).
    + exact (append_cancel_l "/fwew/" _ _ H).
Qed.

Lemma encodeURI_kept : forall s, allChars kept s = true -> encodeURI s = s.
Proof.
  induction s as [|c s IH]; simpl allChars; intros H.
  - reflexivity.
  - apply andb_true_iff in H; destruct H as [K A].
    rewrite encodeURI_String, K, (IH A); reflexivity.
Qed.

(** X12.  Under the same settings two different texts are never looked up
    with the same URL: if two text changes make the same request, the two
    texts are equal (the empty text included, which alone requests the
    list). *)
Theorem same_request_same_text : forall ctx t1 t2 s1 s2,
  snd (exec (searchData ctx t1) s1) = snd (exec (searchData ctx t2) s2) ->
  t1 = t2.
Proof.
  intros ctx t1 t2 s1 s2; rewrite !exec_searchData; simpl snd; intros H.
  inversion H as [E]; apply encodeURI_inj in E.
  exact (getEndpoint_inj _ _ _ E).
Qed.

(** X13.  A text made only of characters that [encodeURI] copies (letters,
    digits, [-_.!~*'()] and [;/?:@&=+$,#]) is requested as typed: when
    [apiRoot] and the language code are made of such characters too, the
    URL requested is the endpoint itself, and [encodeURI] is the identity
    on every such string. *)
Theorem plain_text_requested_verbatim : forall ctx t now,
  allChars kept apiRoot = true ->
  allChars kept (languageCode (settingsGlobal ctx)) = true ->
  allChars kept t = true ->
  snd (exec (searchData ctx t) now) = [axios_get (getEndpoint ctx (Some t))] /\
  encodeURI t = t.
Proof.
  intros ctx t now A L T; split; [|now apply encodeURI_kept].
  rewrite exec_searchData; simpl snd; do 2 f_equal.
  apply encodeURI_kept.
  unfold getEndpoint; destruct (falsy (Some t)); simpl interpolate.
  - rewrite allChars_append, A; reflexivity.
  - destruct (isReverseEnabled (settingsFwew ctx));
      rewrite !allChars_append, A, ?L, T; reflexivity.
Qed.

(** X14.  The two directions share URLs: since [/] is not escaped, the
    forward lookup of the text [r/<languageCode>/<text>] makes the request
    of the reverse lookup of [<text>], for every non-empty text. *)
Theorem forward_lookup_can_be_reverse : forall ctx lang t now,
  t <> "" ->
  snd (exec (searchData (settingsWith false lang ctx) ("r/" ++ lang ++ "/" ++ t)) now)
  = snd (exec (searchData (settingsWith true lang ctx) t) now).
Proof.
  intros ctx lang t now N; rewrite !exec_searchData; simpl snd.
  unfold getEndpoint; rewrite !falsy_Some; simpl.
  destruct (String.eqb_spec t "") as [E|_]; [contradiction|reflexivity].
Qed.

Lemma length_append : forall a b : string,
  String.length (a ++ b) = String.length a + String.length b.
Proof. induction a as [|x a IH]; intros b; simpl; [|rewrite IH]; reflexivity. Qed.

Lemma encodeURI_length_ge : forall s,
  String.length s <= String.length (encodeURI s).
Proof.
  induction s as [|c s IH]; [apply le_n|].
  rewrite encodeURI_String, length_append.
  destruct (kept c); simpl; lia.
Qed.

Lemma encodeURI_fixed_kept : forall s, encodeURI s = s -> allChars kept s = true.
Proof.
  induction s as [|c s IH]; [reflexivity|].
  rewrite encodeURI_String; simpl allChars.
  destruct (kept c) eqn:K; simpl; intros H.
  - inversion H as [E]; rewrite E; now apply IH.
  - exfalso; unfold percentEscape in H; simpl in H; inversion H as [[C E]].
    pose proof (encodeURI_length_ge s) as G.
    rewrite <- E in G at 1; simpl in G; lia.
Qed.

(** X15.  The request is made to the endpoint exactly as [getEndpoint]
    built it if and only if the endpoint holds nothing but characters that
    [encodeURI] copies.  In particular an endpoint that is percent-encoded
    already is encoded once more, [%] being escaped itself. *)
Theorem fetch_verbatim_iff : forall endpoint now,
  snd (exec (fetchData endpoint) now) = [axios_get endpoint]
  <-> allChars kept endpoint = true.
Proof.
  intros endpoint now; rewrite exec_fetchData; simpl snd; split; intros H.
  - apply encodeURI_fixed_kept; congruence.
  - now rewrite (encodeURI_kept _ H).
Qed.

(** The error cell along a run: the body of each rejection that has one. *)
Definition failed (evs : list Event) (e : FwewError) : FwewError :=
  fold_left (fun e ev =>
               match ev with
               | Settle _ (rejects (Axios.axiosError serverError)) =>
                   match Axios.response serverError with
                   | Some response => Axios.data response
                   | None => e
                   end
               | _ => e
               end)
            evs e.

Lemma step_err : forall w ev w',
  step w ev = Some w' -> err (screen w') = failed [ev] (err (screen w)).
Proof.
  intros w ev w' H; destruct ev as [t| | |item| |i outcome].
  - rewrite step_ChangeText in H; now inversion H; subst w'.
  - rewrite step_PressToggle in H; cbv zeta in H.
    destruct (String.eqb (text (screen w)) ""); now inversion H; subst w'.
  - unfold step in H; destruct (isLoading (screen w)); [discriminate|].
    inversion H; subst w'; unfold dispatch; now rewrite exec_onRefresh.
  - unfold step in H; destruct (isLoading (screen w)); [discriminate|].
    now inversion H; subst w'.
  - unfold step in H; destruct (isModalVisible (screen w)); [|discriminate].
    now inversion H; subst w'.
  - destruct outcome as [response|e];
      [rewrite step_Settle_resolves in H | rewrite step_Settle_rejects in H];
      destruct (nth_error (inFlight w) i); try discriminate;
      inversion H; subst w'; [reflexivity|].
    destruct e as [[[r|]]|]; reflexivity.
Qed.

(** X16.  Along any run of events [err] is the body of the last rejection
    that carried one (the value before the run if there was none): no
    response, text change, toggle, refresh or modal event ever writes or
    clears it. *)
Theorem err_along_run : forall evs w w',
  steps w evs = Some w' ->
  err (screen w') = failed evs (err (screen w)).
Proof.
  induction evs as [|ev evs IH]; simpl; intros w w' H.
  - now inversion H; subst.
  - destruct (step w ev) as [w1|] eqn:S; [|discriminate].
    rewrite (IH _ _ H), (step_err _ _ S); reflexivity.
Qed.

End Screen.

(** ** Concrete runs

    The screen with words and error payloads taken to be strings (the empty
    string for the two [{}] casts), no further Fwew settings, and a base URL
    without characters that [encodeURI] escapes. *)

Definition base : string := "https://fwew.example/api".

Definition forwardEn : Settings unit :=
  {| settingsGlobal := {| languageCodeUI := "en"; languageCode := "en" |};
     settingsFwew := {| isReverseEnabled := false; settingsFwewRest := tt |} |}.

Definition mounted : World string string unit := mount "" "" base forwardEn.

Definition noResults : Axios.Caught string :=
  Axios.axiosError {| Axios.response := Some {| Axios.data := "no results" |} |}.

(** C2, as stated, fails: after a successful response, a text change starts
    a fetch (the request is in flight and [isLoading] is set) and [data]
    still holds the previous response. *)
Lemma text_change_keeps_results :
  exists w : World string string unit,
    steps base mounted
          [Settle 0 (resolves string {| Axios.data := ["fmawn"] |}); ChangeText _ _ "a"]
    = Some w /\
    isLoading (screen w) = true /\
    inFlight w = ["https://fwew.example/api/fwew/a"] /\
    data (screen w) = ["fmawn"] /\
    data (screen w) <> [].
Proof.
  eexists; split; [reflexivity|]; repeat split; discriminate.
Qed.

(** C3, as stated, fails: a state in which [isLoading] is true, [data] is
    not empty and [err] holds an error payload, all at once, is reachable
    (a failed lookup, a successful one, then one more keystroke). *)
Lemma loading_results_error_together :
  exists w : World string string unit,
    reachable "" "" base w /\
    isLoading (screen w) = true /\
    data (screen w) <> [] /\
    err (screen w) <> "".
Proof.
  eexists; split.
  - apply (@steps_reachable _ _ "" "" base _
             [Settle 0 (rejects string noResults); ChangeText _ _ "f";
              Settle 0 (resolves string {| Axios.data := ["fmawn"] |});
              ChangeText _ _ "fm"] mounted).
    + apply reachable_mount.
    + reflexivity.
  - repeat split; discriminate.
Qed.

(** C4, as stated, fails: a successful response that follows a failed
    lookup leaves the error payload of the failure in [err]. *)
Lemma success_keeps_earlier_error :
  exists w : World string string unit,
    steps base mounted
          [Settle 0 (rejects string noResults); ChangeText _ _ "fmawn";
           Settle 0 (resolves string {| Axios.data := ["fmawn"] |})]
    = Some w /\
    length (data (screen w)) = 1 /\
    isLoading (screen w) = false /\
    err (screen w) = "no results" /\
    err (screen w) <> "".
Proof.
  eexists; split; [reflexivity|]; repeat split; discriminate.
Qed.

(** C8, as stated, fails: the characters [/], [?] and [#] of the text are
    in the requested URL as they are, where the text encoded as one path
    segment has [%2F], [%3F] and [%23]. *)
Lemma reserved_characters_not_escaped :
  snd (exec (searchData string string base forwardEn "a/b?c#d") (initialState "" ""))
  = [axios_get unit "https://fwew.example/api/fwew/a/b?c#d"] /\
  base ++ "/fwew/" ++ encodeURIComponent "a/b?c#d"
  = "https://fwew.example/api/fwew/a%2Fb%3Fc%23d" /\
  "https://fwew.example/api/fwew/a/b?c#d"
  <> base ++ "/fwew/" ++ encodeURIComponent "a/b?c#d".
Proof. repeat split; discriminate. Qed.

(** What [response.data] can hold when the request fails.  The cast to
    [AxiosError<FwewError>] is not checked, so besides a structured error
    payload it can be the raw text of a response that is not JSON; [{}] is
    the initial value of the [err] cell. *)
Inductive ResponseBody : Type :=
| emptyObject
| payload (message : string)
| rawText (body : string).

Definition isStructured (b : ResponseBody) : bool :=
  match b with
  | payload _ => true
  | _ => false
  end.

(** A 500 response with an empty body, and a request that never got a
    response. *)
Definition serverErrorEmptyBody : Axios.Caught ResponseBody :=
  Axios.axiosError {| Axios.response := Some {| Axios.data := rawText "" |} |}.

Definition networkDown : Axios.Caught ResponseBody :=
  Axios.axiosError {| Axios.response := None |}.

(** C6, as stated, fails: a failure whose response has a body that is not
    a structured error payload is not swallowed.  After mount, a 500
    response with an empty body ends loading and stores that body in
    [err]. *)
Lemma unstructured_body_not_swallowed :
  exists w : World string ResponseBody unit,
    isStructured (rawText "") = false /\
    step base (mount "" emptyObject base forwardEn)
         (Settle 0 (rejects string serverErrorEmptyBody))
    = Some w /\
    isLoading (screen w) = false /\
    err (screen w) = rawText "" /\
    screen w <> initialState "" emptyObject.
Proof.
  eexists; split; [reflexivity|]; split; [reflexivity|].
  repeat split; discriminate.
Qed.

(** [onRejected_by_response] at a request that got no response, and at a
    response with an HTML body. *)
Lemma onRejected_by_response_witness :
  carriesBody networkDown = false /\
  (exec (onRejected string unit networkDown) (initialState "" emptyObject)
   = (initialState "" emptyObject, []) /\
   isLoading (fst (exec (onRejected string unit networkDown)
                        (fst (exec (fetchData string ResponseBody unit
                                              "https://fwew.example/api/list/")
                                   (initialState "" emptyObject))))) = true /\
   step base (mount "" emptyObject base forwardEn)
        (Settle 0 (rejects string networkDown))
   = Some {| screen := initialState "" emptyObject; settings := forwardEn;
             inFlight := [] |}) /\
  (exec (onRejected string unit
           (Axios.axiosError
              {| Axios.response := Some {| Axios.data := rawText "<html>" |} |}))
        (initialState "" emptyObject)
   = ({| isLoading := false; text := ""; data := []; err := rawText "<html>";
         isModalVisible := false; selectedItem := "" |}, []) /\
   step base (mount "" emptyObject base forwardEn)
        (Settle 0 (rejects string
                     (Axios.axiosError
                        {| Axios.response := Some {| Axios.data := rawText "<html>" |} |})))
   = Some {| screen := {| isLoading := false; text := ""; data := [];
                          err := rawText "<html>"; isModalVisible := false;
                          selectedItem := "" |};
             settings := forwardEn; inFlight := [] |}).
Proof.
  split; [reflexivity|].
  apply (@onRejected_by_response string ResponseBody "" emptyObject base unit
           (initialState "" emptyObject) forwardEn
           "https://fwew.example/api/list/" networkDown (rawText "<html>"));
    reflexivity.
Defined.

(** ** Concrete runs of the other handlers *)

(** The screen showing the answer to the first request. *)
Definition listed : World string string unit :=
  {| screen := {| isLoading := false; text := ""; data := ["fmawn"; "tìng"];
                  err := ""; isModalVisible := false; selectedItem := "" |};
     settings := forwardEn;
     inFlight := [] |}.

Definition someRun : list (Event string string) :=
  [PressToggle _ _; ChangeText _ _ "forest"; Settle 0 (rejects string noResults);
   PressToggle _ _; ChangeText _ _ "tìng"; PressToggle _ _].

(** [select_then_dismiss] on the listed words. *)
Lemma select_then_dismiss_witness :
  isLoading (screen listed) = false /\
  isModalVisible (screen listed) = false /\
  steps base listed [SelectEntry _ "tìng"; DismissModal _ _]
  = Some {| screen := {| isLoading := false; text := ""; data := ["fmawn"; "tìng"];
                         err := ""; isModalVisible := false;
                         selectedItem := "tìng" |};
            settings := forwardEn;
            inFlight := [] |}.
Proof.
  split; [reflexivity|]; split; [reflexivity|].
  apply (select_then_dismiss base listed "tìng"); reflexivity.
Defined.

(** [requests_wellformed] after typing a text with a non-ASCII letter
    while the first request is in flight. *)
Lemma requests_wellformed_witness :
  exists w : World string string unit,
    steps base mounted [ChangeText _ _ "tìng"] = Some w /\
    inFlight w = ["https://fwew.example/api/list/";
                  "https://fwew.example/api/fwew/t%C3%ACng"] /\
    Forall (fun url => requestShape base url /\ allChars keptOrPercent url = true)
           (inFlight w).
Proof.
  eexists; split; [reflexivity|]; split; [reflexivity|].
  apply (@requests_wellformed string string "" "" base unit).
  apply (@steps_reachable string string "" "" base unit
           [ChangeText _ _ "tìng"] mounted).
  - apply reachable_mount.
  - reflexivity.
Defined.

(** [settings_along_run] on a run with three presses of the toggle. *)
Lemma settings_along_run_witness :
  exists w : World string string unit,
    steps base mounted someRun = Some w /\
    settingsGlobal (settings w) = settingsGlobal forwardEn /\
    settingsFwewRest (settingsFwew (settings w)) = tt /\
    isReverseEnabled (settingsFwew (settings w)) = flips someRun false.
Proof.
  eexists; split; [reflexivity|].
  apply (settings_along_run base someRun mounted); reflexivity.
Defined.

(** [text_along_run] on the same run. *)
Lemma text_along_run_witness :
  exists w : World string string unit,
    steps base mounted someRun = Some w /\
    text (screen w) = typed someRun "".
Proof.
  eexists; split; [reflexivity|].
  apply (text_along_run base someRun mounted); reflexivity.
Defined.


(** [same_request_same_text] at two changes to the same text from
    different states. *)
Lemma same_request_same_text_witness :
  snd (exec (searchData string string base forwardEn "tìng") (initialState "" ""))
  = snd (exec (searchData string string base forwardEn "tìng") (screen listed)) /\
  "tìng" = "tìng".
Proof.
  split; [reflexivity|].
  apply (same_request_same_text base forwardEn "tìng" "tìng"
           (initialState "" "") (screen listed)); reflexivity.
Defined.

(** [plain_text_requested_verbatim] at an ASCII word. *)
Lemma plain_text_requested_verbatim_witness :
  allChars kept base = true /\
  allChars kept "en" = true /\
  allChars kept "fmawn" = true /\
  snd (exec (searchData string string base forwardEn "fmawn") (initialState "" ""))
  = [axios_get unit "https://fwew.example/api/fwew/fmawn"] /\
  encodeURI "fmawn" = "fmawn".
Proof.
  repeat (split; [reflexivity|]).
  apply (plain_text_requested_verbatim base forwardEn "fmawn" (initialState "" ""));
    reflexivity.
Defined.

(** [forward_lookup_can_be_reverse] at ["forest"] and ["en"]. *)
Lemma forward_lookup_can_be_reverse_witness :
  "forest" <> "" /\
  snd (exec (searchData string string base forwardEn "r/en/forest") (initialState "" ""))
  = snd (exec (searchData string string base (settingsWith true "en" forwardEn) "forest")
              (initialState "" "")).
Proof.
  split; [discriminate|].
  apply (forward_lookup_can_be_reverse base forwardEn "en" (initialState "" ""));
    discriminate.
Defined.

(** [err_along_run] on a run with one failed lookup. *)
Lemma err_along_run_witness :
  exists w : World string string unit,
    steps base mounted someRun = Some w /\
    err (screen w) = "no results" /\
    err (screen w) = failed someRun "".
Proof.
  eexists; split; [reflexivity|]; split; [reflexivity|].
  apply (err_along_run base someRun mounted); reflexivity.
Defined.
